(** * Lottery: a shallow embedding of contracts/Lottery.sol

    The contract state is a record; every public or callback entry point is
    a computation in a small state/revert monad that also collects the
    observable actions of the call (events, the VRF request, the Ether
    transfer).  A transaction runs a computation on the pre-state: if the
    computation reverts, the pre-state is kept and the actions are dropped,
    exactly as the EVM rolls back a reverting call.

    Modelling choices:
    - addresses, amounts, timestamps and random words are [Z]; amounts are
      never near 2^256, so only the checked subtraction of [checkUpkeep] is
      written out with its underflow panic;
    - [address(this).balance] is the field [balance]; a payable call first
      credits [msg.value] to it;
    - the outcome of the external calls (the low-level [call] that pays the
      winner, the VRF coordinator's [requestRandomWords]) is given by the
      environment [Env] of the transaction. *)

From Stdlib Require Import ZArith List Lia Bool.
Import ListNotations.
Open Scope Z_scope.

Definition address := Z.

Inductive LotteryState := OPEN | CALCULATING.

Definition LotteryState_eqb (a b : LotteryState) : bool :=
  match a, b with
  | OPEN, OPEN | CALCULATING, CALCULATING => true
  | _, _ => false
  end.

(** [uint256(s_lotteryState)] *)
Definition LotteryState_to_uint (st : LotteryState) : Z :=
  match st with OPEN => 0 | CALCULATING => 1 end.

Record Lottery := mkLottery {
  i_entranceFee : Z;
  s_players : list address;
  i_gasLane : Z;
  i_subscriptionId : Z;
  i_callbackGasLimit : Z;
  s_recentWinner : address;
  s_lotteryState : LotteryState;
  s_lastTimestamp : Z;
  i_interval : Z;
  balance : Z  (* address(this).balance *)
}.

Definition REQUEST_CONFIRMATIONS : Z := 3.
Definition NUM_WORDS : Z := 1.

(** Revert reasons: the contract's custom errors and Solidity's panics. *)
Inductive LotteryError :=
| Lottery__NotEnoughETHEntered
| Lottery__TransferFailed
| Lottery__NotOpen
| Lottery__UpkeepNotNeeded (currentBalance numPlayers lotteryState : Z)
| Panic (code : Z).

Definition PANIC_ARITHMETIC : Z := 17.     (* 0x11: checked over/underflow *)
Definition PANIC_DIVISION_BY_ZERO : Z := 18. (* 0x12: division or modulo by 0 *)
Definition PANIC_ARRAY_INDEX : Z := 50.    (* 0x32: index out of bounds *)

(** Observable effects of a call. *)
Inductive Action :=
| LotteryEnter (player : address)
| RequestLotteryWinner (requestId : Z)
| WinnerPicked (winner : address)
| RequestRandomWords (keyHash subId minimumRequestConfirmations callbackGasLimit numWords : Z)
| Transfer (recipient : address) (amount : Z).

(** What the chain provides to one transaction. *)
Record Env := mkEnv {
  block_timestamp : Z;
  (* whether [recipient.call{value: amount}("")] returns success *)
  call_succeeds : address -> Z -> bool;
  (* the id the VRF coordinator returns from [requestRandomWords] *)
  vrf_requestId : Z
}.

(** ** The state/revert monad *)

Inductive Outcome (A : Type) :=
| Ok (a : A) (s : Lottery) (log : list Action)
| Revert (e : LotteryError).
Arguments Ok {A} a s log.
Arguments Revert {A} e.

Definition M (A : Type) := Lottery -> list Action -> Outcome A.

Definition ret {A} (a : A) : M A := fun s l => Ok a s l.
Definition bind {A B} (m : M A) (k : A -> M B) : M B :=
  fun s l => match m s l with
             | Ok a s' l' => k a s' l'
             | Revert e => Revert e
             end.
Definition get : M Lottery := fun s l => Ok s s l.
Definition put (s' : Lottery) : M unit := fun _ l => Ok tt s' l.
Definition modify (f : Lottery -> Lottery) : M unit := fun s l => Ok tt (f s) l.
Definition emit (a : Action) : M unit := fun s l => Ok tt s (l ++ [a]).
Definition revert {A} (e : LotteryError) : M A := fun _ _ => Revert e.

Declare Scope evm_scope.
Delimit Scope evm_scope with evm.
Notation "x <- m ;; k" := (bind m (fun x => k))
  (at level 61, m at next level, right associativity) : evm_scope.
Notation "m ;;; k" := (bind m (fun _ => k))
  (at level 61, right associativity) : evm_scope.
Open Scope evm_scope.

(** Field updates. *)
Definition set_players (ps : list address) (s : Lottery) : Lottery :=
  mkLottery (i_entranceFee s) ps (i_gasLane s) (i_subscriptionId s)
    (i_callbackGasLimit s) (s_recentWinner s) (s_lotteryState s)
    (s_lastTimestamp s) (i_interval s) (balance s).
Definition set_recentWinner (w : address) (s : Lottery) : Lottery :=
  mkLottery (i_entranceFee s) (s_players s) (i_gasLane s) (i_subscriptionId s)
    (i_callbackGasLimit s) w (s_lotteryState s)
    (s_lastTimestamp s) (i_interval s) (balance s).
Definition set_lotteryState (st : LotteryState) (s : Lottery) : Lottery :=
  mkLottery (i_entranceFee s) (s_players s) (i_gasLane s) (i_subscriptionId s)
    (i_callbackGasLimit s) (s_recentWinner s) st
    (s_lastTimestamp s) (i_interval s) (balance s).
Definition set_lastTimestamp (t : Z) (s : Lottery) : Lottery :=
  mkLottery (i_entranceFee s) (s_players s) (i_gasLane s) (i_subscriptionId s)
    (i_callbackGasLimit s) (s_recentWinner s) (s_lotteryState s)
    t (i_interval s) (balance s).
Definition set_balance (b : Z) (s : Lottery) : Lottery :=
  mkLottery (i_entranceFee s) (s_players s) (i_gasLane s) (i_subscriptionId s)
    (i_callbackGasLimit s) (s_recentWinner s) (s_lotteryState s)
    (s_lastTimestamp s) (i_interval s) b.

(** ** EVM primitives *)

(** [a - b] on uint256 under Solidity 0.8 checked arithmetic. *)
Definition checked_sub (a b : Z) : M Z :=
  if a <? b then revert (Panic PANIC_ARITHMETIC) else ret (a - b).

(** [xs[i]] on a dynamic array. *)
Definition index {A : Type} (xs : list A) (i : Z) : M A :=
  match nth_error xs (Z.to_nat i) with
  | Some x => ret x
  | None => revert (Panic PANIC_ARRAY_INDEX)
  end.

(** [a % b] on uint256. *)
Definition checked_mod (a b : Z) : M Z :=
  if b =? 0 then revert (Panic PANIC_DIVISION_BY_ZERO) else ret (a mod b).

(** [recipient.call{value: amount}("")]: on success the Ether leaves. *)
Definition call_value (env : Env) (recipient : address) (amount : Z) : M bool :=
  if call_succeeds env recipient amount
  then modify (fun s => set_balance (balance s - amount) s) ;;;
       emit (Transfer recipient amount) ;;;
       ret true
  else ret false.

(** [i_vrfCoordinator.requestRandomWords(...)] *)
Definition requestRandomWords (env : Env)
    (keyHash subId minConf gasLimit numWords : Z) : M Z :=
  emit (RequestRandomWords keyHash subId minConf gasLimit numWords) ;;;
  ret (vrf_requestId env).

(** ** The contract *)

(** [constructor(...)]: [_vrfCoordinatorV2] is only kept by the base
    consumer contract, so it does not appear in the state. *)
Definition constructor (env : Env) (_entranceFee _gasLane _subscriptionId
    _callbackGasLimit _interval : Z) : Lottery :=
  {| i_entranceFee := _entranceFee;
     s_players := [];
     i_gasLane := _gasLane;
     i_subscriptionId := _subscriptionId mod 2 ^ 64;  (* uint64(_subscriptionId) *)
     i_callbackGasLimit := _callbackGasLimit;
     s_recentWinner := 0;
     s_lotteryState := OPEN;
     s_lastTimestamp := block_timestamp env;
     i_interval := _interval;
     balance := 0 |}.

(** [enterLottery()] (its body; [msg.value] is already credited). *)
Definition enterLottery (msg_value : Z) (msg_sender : address) : M unit :=
  s <- get ;;
  if msg_value <? i_entranceFee s then revert Lottery__NotEnoughETHEntered
  else if negb (LotteryState_eqb (s_lotteryState s) OPEN) then revert Lottery__NotOpen
  else put (set_players (s_players s ++ [msg_sender]) s) ;;;
       emit (LotteryEnter msg_sender).

(** [checkUpkeep(bytes)]: the four booleans are computed in order, the
    elapsed time with checked subtraction. *)
Definition checkUpkeep (env : Env) : M bool :=
  s <- get ;;
  let isOpen := LotteryState_eqb OPEN (s_lotteryState s) in
  elapsed <- checked_sub (block_timestamp env) (s_lastTimestamp s) ;;
  let timePassed := i_interval s <? elapsed in
  let hasPlayers := (0 <? length (s_players s))%nat in
  let hasBalance := 0 <? balance s in
  ret (isOpen && timePassed && hasPlayers && hasBalance).

(** [performUpkeep(bytes)] *)
Definition performUpkeep (env : Env) : M unit :=
  upkeepNedded <- checkUpkeep env ;;
  if negb upkeepNedded then
    s <- get ;;
    revert (Lottery__UpkeepNotNeeded (balance s) (Z.of_nat (length (s_players s)))
              (LotteryState_to_uint (s_lotteryState s)))
  else
    modify (set_lotteryState CALCULATING) ;;;
    s <- get ;;
    requestId <- requestRandomWords env (i_gasLane s) (i_subscriptionId s)
                   REQUEST_CONFIRMATIONS (i_callbackGasLimit s) NUM_WORDS ;;
    emit (RequestLotteryWinner requestId).

(** [fulfillRandomWords(uint256 /*requestId*/, uint256[] _randomWords)] *)
Definition fulfillRandomWords (env : Env) (requestId : Z) (_randomWords : list Z) : M unit :=
  s <- get ;;
  w0 <- index _randomWords 0 ;;
  indexOfWinner <- checked_mod w0 (Z.of_nat (length (s_players s))) ;;
  recentWinner <- index (s_players s) indexOfWinner ;;
  modify (set_recentWinner recentWinner) ;;;
  s1 <- get ;;
  success <- call_value env recentWinner (balance s1) ;;
  if negb success then revert Lottery__TransferFailed
  else
    modify (set_lotteryState OPEN) ;;;
    modify (set_players []) ;;;
    modify (set_lastTimestamp (block_timestamp env)) ;;;
    emit (WinnerPicked recentWinner).

(** The getters used by the tests and the deployment tooling. *)
Definition getEntranceFee : M Z := s <- get ;; ret (i_entranceFee s).
Definition getPlayer (_index : Z) : M address := s <- get ;; index (s_players s) _index.
Definition getRecentWinner : M address := s <- get ;; ret (s_recentWinner s).
Definition getLotteryState : M LotteryState := s <- get ;; ret (s_lotteryState s).
Definition getNumberOfPlayers : M Z :=
  s <- get ;; ret (Z.of_nat (length (s_players s))).
Definition getInterval : M Z := s <- get ;; ret (i_interval s).
Definition getLatestTimestamp : M Z := s <- get ;; ret (s_lastTimestamp s).

(** ** Transactions *)

Inductive TxResult :=
| Success (s' : Lottery) (log : list Action)
| Reverted (e : LotteryError).

(** Runs a call on the pre-state; a revert keeps nothing. *)
Definition transact (body : M unit) (s : Lottery) : TxResult :=
  match body s [] with
  | Ok _ s' l => Success s' l
  | Revert e => Reverted e
  end.

(** The state after the transaction: the pre-state if it reverted. *)
Definition post_state (s : Lottery) (r : TxResult) : Lottery :=
  match r with
  | Success s' _ => s'
  | Reverted _ => s
  end.

(** A payable call: [msg.value] reaches the balance before the body runs. *)
Definition receive_value (msg_value : Z) : M unit :=
  modify (fun s => set_balance (balance s + msg_value) s).

Definition tx_enterLottery (msg_value : Z) (msg_sender : address) : Lottery -> TxResult :=
  transact (receive_value msg_value ;;; enterLottery msg_value msg_sender).

Definition tx_performUpkeep (env : Env) : Lottery -> TxResult :=
  transact (performUpkeep env).

Definition tx_fulfillRandomWords (env : Env) (requestId : Z) (randomWords : list Z)
  : Lottery -> TxResult :=
  transact (fulfillRandomWords env requestId randomWords).

(** A [view] call: [None] when it reverts. *)
Definition checkReady (env : Env) (s : Lottery) : option bool :=
  match checkUpkeep env s [] with
  | Ok b _ _ => Some b
  | Revert _ => None
  end.

(** States reachable from deployment through the contract's entry points,
    each transaction in an arbitrary environment. *)
Inductive reachable : Lottery -> Prop :=
| reach_deploy : forall env fee gl sub cb iv,
    reachable (constructor env fee gl sub cb iv)
| reach_enter : forall v snd s,
    reachable s -> reachable (post_state s (tx_enterLottery v snd s))
| reach_performUpkeep : forall env s,
    reachable s -> reachable (post_state s (tx_performUpkeep env s))
| reach_fulfill : forall env r rv s,
    reachable s -> reachable (post_state s (tx_fulfillRandomWords env r rv s)).

(** ** The deployed callback path *)

(** Modelled from the spec: the VRF coordinator's request bookkeeping (the
    RandomnessOracle of spec sections 2 and 6) and the callback entry point
    [rawFulfillRandomWords] that [Lottery] inherits from [VRFConsumerBaseV2];
    neither is among this repository's sources.  [fulfillRandomWords] is
    [internal]: it is only reached through [rawFulfillRandomWords], which
    refuses every caller but the coordinator.  The coordinator keeps the ids
    of the requests it accepted and has not fulfilled; it refuses an id that
    is not pending ("nonexistent request" in the coordinator of the unit
    tests), and delivers the words for a pending id once, consuming the id
    whether the consumer's callback succeeds or reverts. *)
Record System := mkSystem {
  lottery : Lottery;
  coordinator : address;
  pendingRequests : list Z;
  nextRequestId : Z
}.

Inductive SysError :=
| NonexistentRequest
| OnlyCoordinatorCanFulfill (have want : address)
| ConsumerReverted (e : LotteryError).

Inductive SysResult :=
| SysSuccess (sys' : System) (log : list Action)
| SysReverted (e : SysError).

Definition sys_post (sys : System) (r : SysResult) : System :=
  match r with
  | SysSuccess sys' _ => sys'
  | SysReverted _ => sys
  end.

Definition set_lottery (s : Lottery) (sys : System) : System :=
  mkSystem s (coordinator sys) (pendingRequests sys) (nextRequestId sys).

Definition with_requestId (env : Env) (id : Z) : Env :=
  mkEnv (block_timestamp env) (call_succeeds env) id.

(** [performUpkeep], the coordinator assigning and recording the id. *)
Definition sys_performUpkeep (env : Env) (sys : System) : SysResult :=
  let id := nextRequestId sys in
  match tx_performUpkeep (with_requestId env id) (lottery sys) with
  | Success s' log =>
      SysSuccess (mkSystem s' (coordinator sys) (id :: pendingRequests sys) (id + 1)) log
  | Reverted e => SysReverted (ConsumerReverted e)
  end.

(** [VRFConsumerBaseV2.rawFulfillRandomWords], called by [sender]. *)
Definition rawFulfillRandomWords (env : Env) (sender : address) (requestId : Z)
    (randomWords : list Z) (sys : System) : SysResult :=
  if negb (sender =? coordinator sys)
  then SysReverted (OnlyCoordinatorCanFulfill sender (coordinator sys))
  else match tx_fulfillRandomWords env requestId randomWords (lottery sys) with
       | Success s' log => SysSuccess (set_lottery s' sys) log
       | Reverted e => SysReverted (ConsumerReverted e)
       end.

(** The coordinator delivering the words of [requestId]. *)
Definition coordinator_fulfill (env : Env) (requestId : Z) (randomWords : list Z)
    (sys : System) : SysResult :=
  if negb (existsb (Z.eqb requestId) (pendingRequests sys))
  then SysReverted NonexistentRequest
  else
    let sys1 := mkSystem (lottery sys) (coordinator sys)
                  (remove Z.eq_dec requestId (pendingRequests sys)) (nextRequestId sys) in
    match rawFulfillRandomWords env (coordinator sys) requestId randomWords sys1 with
    | SysSuccess sys' log => SysSuccess sys' log
    | SysReverted _ => SysSuccess sys1 []
    end.

(** ** Sample inputs *)

Definition env_at (t : Z) : Env := mkEnv t (fun _ _ => true) 77.
Definition env_refusing (t : Z) : Env := mkEnv t (fun _ _ => false) 77.

(** Four entries of fee 10 by players 101..104, deployed at time 0. *)
Definition enter_as (v : Z) (snd : address) (s : Lottery) : Lottery :=
  post_state s (tx_enterLottery v snd s).

Definition four_players : Lottery :=
  enter_as 10 104 (enter_as 10 103 (enter_as 10 102 (enter_as 10 101
    (constructor (env_at 0) 10 5 1 500000 30)))).

Example four_players_players : s_players four_players = [101; 102; 103; 104].
Proof. reflexivity. Qed.
Example four_players_balance : balance four_players = 40.
Proof. reflexivity. Qed.
Example four_players_ready : checkReady (env_at 31) four_players = Some true.
Proof. reflexivity. Qed.
Example four_players_draw :
  tx_fulfillRandomWords (env_at 40) 77 [42]
    (post_state four_players (tx_performUpkeep (env_at 31) four_players)) =
  Success (mkLottery 10 [] 5 1 500000 103 OPEN 40 30 0)
          [Transfer 103 40; WinnerPicked 103].
Proof. reflexivity. Qed.

(** ** Characterisation of the entry points *)

Ltac run_evm :=
  unfold tx_enterLottery, tx_performUpkeep, tx_fulfillRandomWords, checkReady,
    transact, receive_value, enterLottery, performUpkeep, fulfillRandomWords,
    checkUpkeep, requestRandomWords, call_value, checked_sub, checked_mod, index,
    bind, get, put, modify, emit, ret, revert,
    set_players, set_balance, set_recentWinner, set_lotteryState, set_lastTimestamp; simpl.

Lemma checkReady_eq (env : Env) (s : Lottery) :
  checkReady env s =
  if block_timestamp env <? s_lastTimestamp s then None
  else Some (LotteryState_eqb OPEN (s_lotteryState s)
             && (i_interval s <? block_timestamp env - s_lastTimestamp s)
             && (0 <? length (s_players s))%nat
             && (0 <? balance s)).
Proof.
  run_evm. destruct (block_timestamp env <? s_lastTimestamp s); reflexivity.
Qed.

Lemma checkUpkeep_view (env : Env) (s : Lottery) (l : list Action) :
  checkUpkeep env s l =
  match checkReady env s with
  | Some b => Ok b s l
  | None => Revert (Panic PANIC_ARITHMETIC)
  end.
Proof.
  run_evm. destruct (block_timestamp env <? s_lastTimestamp s); reflexivity.
Qed.

Lemma tx_enterLottery_eq (v : Z) (snd : address) (s : Lottery) :
  tx_enterLottery v snd s =
  if v <? i_entranceFee s then Reverted Lottery__NotEnoughETHEntered
  else if negb (LotteryState_eqb (s_lotteryState s) OPEN) then Reverted Lottery__NotOpen
  else Success (mkLottery (i_entranceFee s) (s_players s ++ [snd]) (i_gasLane s)
                  (i_subscriptionId s) (i_callbackGasLimit s) (s_recentWinner s)
                  (s_lotteryState s) (s_lastTimestamp s) (i_interval s) (balance s + v))
               [LotteryEnter snd].
Proof.
  run_evm. destruct (v <? i_entranceFee s); [reflexivity|].
  destruct (s_lotteryState s); reflexivity.
Qed.

Lemma tx_performUpkeep_eq (env : Env) (s : Lottery) :
  tx_performUpkeep env s =
  match checkReady env s with
  | None => Reverted (Panic PANIC_ARITHMETIC)
  | Some false =>
      Reverted (Lottery__UpkeepNotNeeded (balance s) (Z.of_nat (length (s_players s)))
                  (LotteryState_to_uint (s_lotteryState s)))
  | Some true =>
      Success (set_lotteryState CALCULATING s)
        [RequestRandomWords (i_gasLane s) (i_subscriptionId s) REQUEST_CONFIRMATIONS
           (i_callbackGasLimit s) NUM_WORDS;
         RequestLotteryWinner (vrf_requestId env)]
  end.
Proof.
  unfold tx_performUpkeep, transact, performUpkeep, bind at 1.
  rewrite checkUpkeep_view.
  destruct (checkReady env s) as [[|]|]; reflexivity.
Qed.

(** The winner selected from the first random word, when there is one. *)
Definition selected_winner (rv : list Z) (s : Lottery) : option address :=
  match rv with
  | [] => None
  | w0 :: _ =>
      nth_error (s_players s) (Z.to_nat (w0 mod Z.of_nat (length (s_players s))))
  end.

Lemma tx_fulfillRandomWords_eq (env : Env) (r : Z) (rv : list Z) (s : Lottery) :
  tx_fulfillRandomWords env r rv s =
  match rv with
  | [] => Reverted (Panic PANIC_ARRAY_INDEX)
  | w0 :: _ =>
      if Z.of_nat (length (s_players s)) =? 0 then Reverted (Panic PANIC_DIVISION_BY_ZERO)
      else match selected_winner rv s with
           | None => Reverted (Panic PANIC_ARRAY_INDEX)
           | Some w =>
               if call_succeeds env w (balance s)
               then Success (mkLottery (i_entranceFee s) [] (i_gasLane s)
                               (i_subscriptionId s) (i_callbackGasLimit s) w OPEN
                               (block_timestamp env) (i_interval s) 0)
                            [Transfer w (balance s); WinnerPicked w]
               else Reverted Lottery__TransferFailed
           end
  end.
Proof.
  run_evm. destruct rv as [|w0 ws]; [reflexivity|]. unfold selected_winner. simpl.
  destruct (Z.of_nat (length (s_players s)) =? 0); [reflexivity|].
  destruct (nth_error (s_players s) (Z.to_nat (w0 mod Z.of_nat (length (s_players s)))))
    as [w|]; [|reflexivity]. simpl.
  destruct (call_succeeds env w (balance s)); [|reflexivity].
  simpl. rewrite Z.sub_diag. reflexivity.
Qed.

(** With at least one player, the index is in range. *)
Lemma selected_winner_some (w0 : Z) (ws : list Z) (s : Lottery) :
  s_players s <> [] -> exists w, selected_winner (w0 :: ws) s = Some w.
Proof.
  intros Hne. simpl.
  destruct (nth_error _ _) as [w|] eqn:E; [eauto|].
  exfalso. apply nth_error_None in E.
  destruct (s_players s) as [|p ps]; [congruence|].
  set (n := length (p :: ps)) in *.
  assert (0 < n)%nat by (unfold n; simpl; lia).
  pose proof (Z.mod_pos_bound w0 (Z.of_nat n) ltac:(lia)). lia.
Qed.

Lemma selected_winner_players (rv : list Z) (s : Lottery) (w : address) :
  selected_winner rv s = Some w -> s_players s <> [].
Proof.
  destruct rv as [|w0 ws]; simpl; [discriminate|].
  destruct (s_players s); simpl; [destruct (Z.to_nat _); discriminate | congruence].
Qed.

(** ** Claims *)

(** C1: a successful fulfilment with random words [w0 :: _] and players
    [ps] picks [ps[w0 mod |ps|]] as the winner, transfers the whole balance
    (the pot) to that winner alone; with four players and the word 42 the
    winner is [ps[2]]. *)
Theorem fulfill_selects_winner (env : Env) (r w0 : Z) (ws : list Z)
    (s s' : Lottery) (log : list Action) :
  s_players s <> [] ->
  tx_fulfillRandomWords env r (w0 :: ws) s = Success s' log ->
  (exists winner,
      nth_error (s_players s) (Z.to_nat (w0 mod Z.of_nat (length (s_players s))))
        = Some winner
      /\ s_recentWinner s' = winner
      /\ log = [Transfer winner (balance s); WinnerPicked winner]
      /\ balance s' = 0)
  /\ (forall p0 p1 p2 p3 : address,
        s_players s = [p0; p1; p2; p3] -> w0 = 42 ->
        s_recentWinner s' = p2 /\ log = [Transfer p2 (balance s); WinnerPicked p2]).
Proof.
  intros Hne Hok.
  destruct (selected_winner_some w0 ws s Hne) as [w Hw].
  rewrite tx_fulfillRandomWords_eq in Hok.
  assert (Hlen : (Z.of_nat (length (s_players s)) =? 0) = false).
  { destruct (s_players s); [congruence|]. simpl. lia. }
  rewrite Hlen, Hw in Hok.
  destruct (call_succeeds env w (balance s)); [|discriminate].
  injection Hok as <- <-.
  split.
  - exists w. simpl in Hw. repeat split; assumption.
  - intros p0 p1 p2 p3 Hps ->. simpl in Hw. rewrite Hps in Hw.
    simpl in Hw. injection Hw as <-. split; reflexivity.
Qed.

Lemma fulfill_selects_winner_witness :
  s_players four_players <> [] /\
  tx_fulfillRandomWords (env_at 40) 77 [42] four_players =
    Success (mkLottery 10 [] 5 1 500000 103 OPEN 40 30 0)
            [Transfer 103 40; WinnerPicked 103] /\
  s_recentWinner (mkLottery 10 [] 5 1 500000 103 OPEN 40 30 0) = 103.
Proof.
  split; [discriminate|]. split; [reflexivity|].
  refine (proj1 (proj2 (fulfill_selects_winner (env_at 40) 77 42 [] four_players
            (mkLottery 10 [] 5 1 500000 103 OPEN 40 30 0)
            [Transfer 103 40; WinnerPicked 103] _ _) 101 102 103 104 _ _));
    first [discriminate | reflexivity].
Defined.

(** C2: after a successful fulfilment the recent winner is the selected
    winner, the players are cleared, the balance (pot) is zero, the last
    timestamp is the block time and the state is OPEN; nothing else of the
    contract state changes.  The contract keeps no pending request id. *)
Theorem fulfill_success_post_state (env : Env) (r : Z) (rv : list Z)
    (s s' : Lottery) (log : list Action) :
  tx_fulfillRandomWords env r rv s = Success s' log ->
  exists winner,
    selected_winner rv s = Some winner
    /\ s' = mkLottery (i_entranceFee s) [] (i_gasLane s) (i_subscriptionId s)
              (i_callbackGasLimit s) winner OPEN (block_timestamp env) (i_interval s) 0
    /\ s_recentWinner s' = winner /\ s_players s' = [] /\ balance s' = 0
    /\ s_lastTimestamp s' = block_timestamp env /\ s_lotteryState s' = OPEN.
Proof.
  rewrite tx_fulfillRandomWords_eq. intros Hok.
  destruct rv as [|w0 ws]; [discriminate|].
  destruct (Z.of_nat (length (s_players s)) =? 0); [discriminate|].
  destruct (selected_winner (w0 :: ws) s) as [w|]; [|discriminate].
  destruct (call_succeeds env w (balance s)); [|discriminate].
  injection Hok as <- _.
  exists w. repeat split; reflexivity.
Qed.

Lemma fulfill_success_post_state_witness :
  exists winner,
    selected_winner [42] four_players = Some winner
    /\ mkLottery 10 [] 5 1 500000 103 OPEN 40 30 0
       = mkLottery 10 [] 5 1 500000 winner OPEN 40 30 0
    /\ 103 = winner /\ @nil address = [] /\ 0 = 0 /\ 40 = 40 /\ OPEN = OPEN.
Proof.
  exact (fulfill_success_post_state (env_at 40) 77 [42] four_players
           (mkLottery 10 [] 5 1 500000 103 OPEN 40 30 0)
           [Transfer 103 40; WinnerPicked 103] eq_refl).
Defined.

(** C3: when the payout call to the selected winner fails, fulfilment
    reverts with [Lottery__TransferFailed] and the state after the
    transaction is the pre-state: still CALCULATING, balance retained,
    players, recent winner and last timestamp unchanged (the write of
    [s_recentWinner] before the call is rolled back). *)
Theorem fulfill_payout_failure_reverts (env : Env) (r : Z) (rv : list Z)
    (s : Lottery) (winner : address) :
  selected_winner rv s = Some winner ->
  call_succeeds env winner (balance s) = false ->
  tx_fulfillRandomWords env r rv s = Reverted Lottery__TransferFailed
  /\ post_state s (tx_fulfillRandomWords env r rv s) = s
  /\ s_lotteryState (post_state s (tx_fulfillRandomWords env r rv s)) = s_lotteryState s
  /\ balance (post_state s (tx_fulfillRandomWords env r rv s)) = balance s
  /\ s_players (post_state s (tx_fulfillRandomWords env r rv s)) = s_players s
  /\ s_recentWinner (post_state s (tx_fulfillRandomWords env r rv s)) = s_recentWinner s
  /\ s_lastTimestamp (post_state s (tx_fulfillRandomWords env r rv s)) = s_lastTimestamp s.
Proof.
  intros Hw Hfail.
  assert (Hrev : tx_fulfillRandomWords env r rv s = Reverted Lottery__TransferFailed).
  { rewrite tx_fulfillRandomWords_eq.
    pose proof (selected_winner_players rv s winner Hw) as Hne.
    destruct rv as [|w0 ws]; [discriminate|].
    assert (Hlen : (Z.of_nat (length (s_players s)) =? 0) = false).
    { destruct (s_players s); [congruence|]. simpl. lia. }
    rewrite Hlen, Hw, Hfail. reflexivity. }
  rewrite Hrev. repeat split.
Qed.

Definition calculating_players : Lottery :=
  set_lotteryState CALCULATING four_players.

Lemma fulfill_payout_failure_reverts_witness :
  tx_fulfillRandomWords (env_refusing 40) 77 [42] calculating_players
    = Reverted Lottery__TransferFailed
  /\ s_lotteryState calculating_players = CALCULATING.
Proof.
  split; [|reflexivity].
  exact (proj1 (fulfill_payout_failure_reverts (env_refusing 40) 77 [42]
                  calculating_players 103 eq_refl eq_refl)).
Defined.

(** C4: a fulfilment whose id is not a pending request, also when none is
    pending, is refused with "nonexistent request" and changes nothing; the
    inherited callback refuses every caller but the coordinator; and once a
    request has been fulfilled successfully, a second delivery of the same
    id is refused in the same way. *)
Theorem fulfill_unknown_request_rejected (env : Env) (r : Z) (rv : list Z) (sys : System) :
  (~ In r (pendingRequests sys) ->
     coordinator_fulfill env r rv sys = SysReverted NonexistentRequest
     /\ sys_post sys (coordinator_fulfill env r rv sys) = sys)
  /\ (forall sender, sender <> coordinator sys ->
        rawFulfillRandomWords env sender r rv sys
          = SysReverted (OnlyCoordinatorCanFulfill sender (coordinator sys)))
  /\ (forall sys' log env' rv',
        coordinator_fulfill env r rv sys = SysSuccess sys' log ->
        coordinator_fulfill env' r rv' sys' = SysReverted NonexistentRequest
        /\ sys_post sys' (coordinator_fulfill env' r rv' sys') = sys').
Proof.
  assert (Hnot : forall sys0, ~ In r (pendingRequests sys0) ->
            forall env0 rv0, coordinator_fulfill env0 r rv0 sys0 = SysReverted NonexistentRequest).
  { intros sys0 Hn env0 rv0. unfold coordinator_fulfill.
    replace (existsb (Z.eqb r) (pendingRequests sys0)) with false; [reflexivity|].
    symmetry. apply not_true_iff_false. intros Hx.
    apply existsb_exists in Hx as [x [Hx Heq]]. apply Z.eqb_eq in Heq. subst. contradiction. }
  split; [|split].
  - intros Hn. rewrite (Hnot sys Hn). split; reflexivity.
  - intros sender Hs. unfold rawFulfillRandomWords.
    replace (sender =? coordinator sys) with false by (symmetry; apply Z.eqb_neq; exact Hs).
    reflexivity.
  - intros sys' log env' rv' Hok.
    assert (Hp : ~ In r (pendingRequests sys')).
    { unfold coordinator_fulfill in Hok.
      destruct (negb (existsb (Z.eqb r) (pendingRequests sys))); [discriminate|].
      unfold rawFulfillRandomWords in Hok. simpl in Hok. rewrite Z.eqb_refl in Hok. simpl in Hok.
      destruct (tx_fulfillRandomWords env r rv (lottery sys)); injection Hok as <- _;
        simpl; apply remove_In. }
    rewrite (Hnot sys' Hp). split; reflexivity.
Qed.

Definition idle_system : System := mkSystem four_players 900 [] 1.

Definition requested_system : System :=
  sys_post idle_system (sys_performUpkeep (env_at 31) idle_system).

Definition settled_system : System :=
  sys_post requested_system (coordinator_fulfill (env_at 40) 1 [42] requested_system).

Example requested_system_pending : pendingRequests requested_system = [1].
Proof. reflexivity. Qed.
Example settled_system_winner :
  s_recentWinner (lottery settled_system) = 103 /\ pendingRequests settled_system = [].
Proof. split; reflexivity. Qed.

Lemma fulfill_unknown_request_rejected_witness :
  coordinator_fulfill (env_at 40) 12345 [42] idle_system = SysReverted NonexistentRequest
  /\ rawFulfillRandomWords (env_at 40) 5 12345 [42] idle_system
     = SysReverted (OnlyCoordinatorCanFulfill 5 900)
  /\ coordinator_fulfill (env_at 50) 1 [7] settled_system = SysReverted NonexistentRequest.
Proof.
  destruct (fulfill_unknown_request_rejected (env_at 40) 12345 [42] idle_system)
    as [H1 [H2 _]].
  split; [|split].
  - exact (proj1 (H1 ltac:(simpl; tauto))).
  - exact (H2 5 ltac:(simpl; lia)).
  - destruct (fulfill_unknown_request_rejected (env_at 40) 1 [42] requested_system)
      as [_ [_ H3]].
    exact (proj1 (H3 settled_system [Transfer 103 40; WinnerPicked 103] (env_at 50) [7]
                    eq_refl)).
Defined.

(** C5: when the block time is not before the last timestamp (so the
    checked subtraction does not revert), [checkUpkeep] returns true exactly
    when the lottery is OPEN, more than [i_interval] has elapsed, there is a
    player and the balance is positive; in particular it is false with no
    players. *)
Theorem checkReady_iff (env : Env) (s : Lottery) :
  s_lastTimestamp s <= block_timestamp env ->
  exists b, checkReady env s = Some b
    /\ (b = true <->
        s_lotteryState s = OPEN
        /\ block_timestamp env - s_lastTimestamp s > i_interval s
        /\ s_players s <> []
        /\ balance s > 0)
    /\ (s_players s = [] -> b = false).
Proof.
  intros Ht. rewrite checkReady_eq.
  replace (block_timestamp env <? s_lastTimestamp s) with false
    by (symmetry; apply Z.ltb_ge; lia).
  eexists. split; [reflexivity|]. split.
  - rewrite !andb_true_iff, Z.ltb_lt, Nat.ltb_lt, Z.ltb_lt.
    destruct (s_lotteryState s); simpl.
    + split.
      * intros [[[_ H1] H2] H3]. repeat split; try lia.
        destruct (s_players s); simpl in *; [lia | discriminate].
      * intros [_ [H1 [H2 H3]]]. repeat split; try lia.
        destruct (s_players s); simpl; [congruence | lia].
    + split; [intros [[[H _] _] _]; discriminate | intros [H _]; discriminate].
  - intros ->. simpl. rewrite !andb_false_r. reflexivity.
Qed.

Lemma checkReady_iff_witness :
  exists b, checkReady (env_at 31) four_players = Some b
    /\ (b = true <->
        s_lotteryState four_players = OPEN
        /\ 31 - s_lastTimestamp four_players > i_interval four_players
        /\ s_players four_players <> []
        /\ balance four_players > 0)
    /\ (s_players four_players = [] -> b = false).
Proof.
  apply (checkReady_iff (env_at 31) four_players). vm_compute. discriminate.
Defined.

Lemma checkReady_true (env : Env) (s : Lottery) :
  checkReady env s = Some true ->
  s_lotteryState s = OPEN /\ s_players s <> [] /\ balance s > 0.
Proof.
  rewrite checkReady_eq.
  destruct (block_timestamp env <? s_lastTimestamp s); [discriminate|].
  intros H. injection H as H.
  rewrite !andb_true_iff, Z.ltb_lt, Nat.ltb_lt, Z.ltb_lt in H.
  destruct H as [[[Hopen _] Hp] Hb].
  repeat split; [destruct (s_lotteryState s); [reflexivity|discriminate] | | lia].
  destruct (s_players s); simpl in Hp; [lia | discriminate].
Qed.

(** C6: if [checkUpkeep] returns false, [performUpkeep] reverts with
    [Lottery__UpkeepNotNeeded(balance, #players, state)] and leaves the
    state as it was; if it returns true, the state becomes CALCULATING
    (nothing else changes) and exactly one VRF request is issued. *)
Theorem performUpkeep_gate (env : Env) (s : Lottery) :
  (checkReady env s = Some false ->
     tx_performUpkeep env s =
       Reverted (Lottery__UpkeepNotNeeded (balance s) (Z.of_nat (length (s_players s)))
                   (LotteryState_to_uint (s_lotteryState s)))
     /\ post_state s (tx_performUpkeep env s) = s)
  /\ (checkReady env s = Some true ->
     tx_performUpkeep env s =
       Success (set_lotteryState CALCULATING s)
         [RequestRandomWords (i_gasLane s) (i_subscriptionId s) REQUEST_CONFIRMATIONS
            (i_callbackGasLimit s) NUM_WORDS;
          RequestLotteryWinner (vrf_requestId env)]
     /\ s_lotteryState (post_state s (tx_performUpkeep env s)) = CALCULATING).
Proof.
  rewrite tx_performUpkeep_eq. split; intros ->; split; reflexivity.
Qed.

Lemma performUpkeep_gate_witness :
  checkReady (env_at 10) four_players = Some false
  /\ tx_performUpkeep (env_at 10) four_players =
       Reverted (Lottery__UpkeepNotNeeded 40 4 0)
  /\ checkReady (env_at 31) four_players = Some true
  /\ s_lotteryState (post_state four_players (tx_performUpkeep (env_at 31) four_players))
     = CALCULATING.
Proof.
  split; [reflexivity|]. split.
  - exact (proj1 (proj1 (performUpkeep_gate (env_at 10) four_players) eq_refl)).
  - split; [reflexivity|].
    exact (proj2 (proj2 (performUpkeep_gate (env_at 31) four_players) eq_refl)).
Defined.

(** C7: a payment below the entrance fee reverts with
    [Lottery__NotEnoughETHEntered] in either state (the payment check comes
    first), leaving players and balance as they were. *)
Theorem enter_underpaid_reverts (v : Z) (snd : address) (s : Lottery) :
  v < i_entranceFee s ->
  tx_enterLottery v snd s = Reverted Lottery__NotEnoughETHEntered
  /\ post_state s (tx_enterLottery v snd s) = s
  /\ s_players (post_state s (tx_enterLottery v snd s)) = s_players s
  /\ balance (post_state s (tx_enterLottery v snd s)) = balance s.
Proof.
  intros Hlt. rewrite tx_enterLottery_eq.
  replace (v <? i_entranceFee s) with true by (symmetry; apply Z.ltb_lt; exact Hlt).
  repeat split.
Qed.

Lemma enter_underpaid_reverts_witness :
  tx_enterLottery 9 200 calculating_players = Reverted Lottery__NotEnoughETHEntered
  /\ tx_enterLottery 9 200 four_players = Reverted Lottery__NotEnoughETHEntered.
Proof.
  split.
  - exact (proj1 (enter_underpaid_reverts 9 200 calculating_players
                    ltac:(vm_compute; reflexivity))).
  - exact (proj1 (enter_underpaid_reverts 9 200 four_players
                    ltac:(vm_compute; reflexivity))).
Defined.

(** The invariant behind C8. *)
Lemma reachable_calculating_players (s : Lottery) :
  reachable s -> s_lotteryState s = CALCULATING -> s_players s <> [].
Proof.
  induction 1 as [env fee gl sub cb iv | v snd s _ IH | env s _ IH | env r rv s _ IH].
  - discriminate.
  - rewrite tx_enterLottery_eq.
    destruct (v <? i_entranceFee s); [exact IH|].
    destruct (negb (LotteryState_eqb (s_lotteryState s) OPEN)); [exact IH|].
    simpl. intros _. destruct (s_players s); discriminate.
  - rewrite tx_performUpkeep_eq.
    destruct (checkReady env s) as [[|]|] eqn:E; try exact IH.
    intros _. exact (proj1 (proj2 (checkReady_true env s E))).
  - rewrite tx_fulfillRandomWords_eq.
    destruct rv as [|w0 ws]; [exact IH|].
    destruct (Z.of_nat (length (s_players s)) =? 0); [exact IH|].
    destruct (selected_winner (w0 :: ws) s) as [w|]; [|exact IH].
    destruct (call_succeeds env w (balance s)); [discriminate | exact IH].
Qed.

(** C8: in every reachable state, CALCULATING implies at least one player,
    so fulfilment from such a state never takes the modulo by zero. *)
Theorem calculating_has_players (s : Lottery) :
  reachable s ->
  s_lotteryState s = CALCULATING ->
  s_players s <> []
  /\ forall env r w0 ws,
       tx_fulfillRandomWords env r (w0 :: ws) s <> Reverted (Panic PANIC_DIVISION_BY_ZERO).
Proof.
  intros Hr Hc.
  pose proof (reachable_calculating_players s Hr Hc) as Hne.
  split; [exact Hne|].
  intros env r w0 ws. rewrite tx_fulfillRandomWords_eq.
  assert (Hlen : (Z.of_nat (length (s_players s)) =? 0) = false).
  { destruct (s_players s); [congruence|]. simpl. lia. }
  rewrite Hlen.
  destruct (selected_winner_some w0 ws s Hne) as [w ->].
  destruct (call_succeeds env w (balance s)); discriminate.
Qed.

Definition drawn : Lottery :=
  post_state four_players (tx_performUpkeep (env_at 31) four_players).

Lemma drawn_reachable : reachable drawn.
Proof.
  unfold drawn. apply reach_performUpkeep.
  unfold four_players, enter_as.
  repeat apply reach_enter. apply reach_deploy.
Qed.

Lemma calculating_has_players_witness :
  s_lotteryState drawn = CALCULATING /\ s_players drawn <> [].
Proof.
  split; [reflexivity|].
  exact (proj1 (calculating_has_players drawn drawn_reachable eq_refl)).
Defined.

(** C9: the request id does not influence fulfilment. *)
Theorem fulfill_requestId_irrelevant (env : Env) (r1 r2 : Z) (rv : list Z) (s : Lottery) :
  tx_fulfillRandomWords env r1 rv s = tx_fulfillRandomWords env r2 rv s
  /\ post_state s (tx_fulfillRandomWords env r1 rv s)
     = post_state s (tx_fulfillRandomWords env r2 rv s).
Proof.
  rewrite !tx_fulfillRandomWords_eq. split; reflexivity.
Qed.

(** C10: a successful entry appends the sender to the players and adds
    [msg.value] to the balance; every other field is unchanged and the only
    action is the [LotteryEnter] event. *)
Theorem enter_success_frame (v : Z) (snd : address) (s s' : Lottery) (log : list Action) :
  tx_enterLottery v snd s = Success s' log ->
  s_players s' = s_players s ++ [snd]
  /\ balance s' = balance s + v
  /\ s_lotteryState s' = s_lotteryState s
  /\ s_lastTimestamp s' = s_lastTimestamp s
  /\ s_recentWinner s' = s_recentWinner s
  /\ i_entranceFee s' = i_entranceFee s
  /\ i_interval s' = i_interval s
  /\ i_gasLane s' = i_gasLane s
  /\ i_subscriptionId s' = i_subscriptionId s
  /\ i_callbackGasLimit s' = i_callbackGasLimit s
  /\ log = [LotteryEnter snd].
Proof.
  rewrite tx_enterLottery_eq.
  destruct (v <? i_entranceFee s); [discriminate|].
  destruct (negb (LotteryState_eqb (s_lotteryState s) OPEN)); [discriminate|].
  intros H. injection H as <- <-. repeat split.
Qed.

Lemma enter_success_frame_witness :
  s_players (enter_as 15 105 four_players) = [101; 102; 103; 104; 105]
  /\ balance (enter_as 15 105 four_players) = 55.
Proof.
  destruct (enter_success_frame 15 105 four_players
              (mkLottery 10 [101; 102; 103; 104; 105] 5 1 500000 0 OPEN 0 30 55)
              [LotteryEnter 105] eq_refl) as [Hp [Hb _]].
  split; [exact Hp | exact Hb].
Defined.

(** ** Further properties of the contract *)

(** A [view] call on a state. *)
Definition view {A : Type} (m : M A) (s : Lottery) : Outcome A := m s [].

(** The immutable configuration of a deployment. *)
Definition immutables (s : Lottery) : Z * Z * Z * Z * Z :=
  (i_entranceFee s, i_gasLane s, i_subscriptionId s, i_callbackGasLimit s, i_interval s).


(** While a draw is pending, no entry is accepted: [enterLottery] reverts
    (with [Lottery__NotEnoughETHEntered] if underpaid, [Lottery__NotOpen]
    otherwise) and the state stays as it was. *)
Theorem enter_calculating_reverts (v : Z) (snd : address) (s : Lottery) :
  s_lotteryState s = CALCULATING ->
  tx_enterLottery v snd s =
    Reverted (if v <? i_entranceFee s then Lottery__NotEnoughETHEntered
              else Lottery__NotOpen)
  /\ post_state s (tx_enterLottery v snd s) = s.
Proof.
  intros Hc. rewrite tx_enterLottery_eq, Hc. simpl.
  destruct (v <? i_entranceFee s); split; reflexivity.
Qed.

Lemma enter_calculating_reverts_witness :
  tx_enterLottery 10 200 calculating_players = Reverted Lottery__NotOpen.
Proof.
  exact (proj1 (enter_calculating_reverts 10 200 calculating_players eq_refl)).
Defined.

(** While a draw is pending, a second draw cannot be requested:
    [performUpkeep] reverts with [Lottery__UpkeepNotNeeded] reporting state 1. *)
Theorem performUpkeep_calculating_reverts (env : Env) (s : Lottery) :
  s_lotteryState s = CALCULATING ->
  s_lastTimestamp s <= block_timestamp env ->
  tx_performUpkeep env s =
    Reverted (Lottery__UpkeepNotNeeded (balance s) (Z.of_nat (length (s_players s))) 1).
Proof.
  intros Hc Ht. rewrite tx_performUpkeep_eq, checkReady_eq, Hc.
  replace (block_timestamp env <? s_lastTimestamp s) with false
    by (symmetry; apply Z.ltb_ge; lia).
  reflexivity.
Qed.

Lemma performUpkeep_calculating_reverts_witness :
  tx_performUpkeep (env_at 100) drawn = Reverted (Lottery__UpkeepNotNeeded 40 4 1).
Proof.
  exact (performUpkeep_calculating_reverts (env_at 100) drawn eq_refl
           ltac:(vm_compute; discriminate)).
Defined.

(** When the block time is before the last timestamp, the checked
    subtraction in [checkUpkeep] panics, and so does [performUpkeep]. *)
Theorem performUpkeep_time_underflow (env : Env) (s : Lottery) :
  block_timestamp env < s_lastTimestamp s ->
  checkReady env s = None
  /\ tx_performUpkeep env s = Reverted (Panic PANIC_ARITHMETIC).
Proof.
  intros Ht. rewrite tx_performUpkeep_eq, checkReady_eq.
  replace (block_timestamp env <? s_lastTimestamp s) with true
    by (symmetry; apply Z.ltb_lt; lia).
  split; reflexivity.
Qed.

Lemma performUpkeep_time_underflow_witness :
  tx_performUpkeep (env_at 5) (constructor (env_at 10) 10 5 1 500000 30)
    = Reverted (Panic PANIC_ARITHMETIC).
Proof.
  exact (proj2 (performUpkeep_time_underflow (env_at 5)
                  (constructor (env_at 10) 10 5 1 500000 30)
                  ltac:(vm_compute; reflexivity))).
Defined.

(** Edge cases of [fulfillRandomWords]: an empty word array panics with an
    out-of-bounds index, and with words but no players the modulo panics
    with division by zero; neither changes the state. *)
Theorem fulfill_edge_panics (env : Env) (r : Z) (rv : list Z) (s : Lottery) :
  (rv = [] -> tx_fulfillRandomWords env r rv s = Reverted (Panic PANIC_ARRAY_INDEX))
  /\ (rv <> [] -> s_players s = [] ->
      tx_fulfillRandomWords env r rv s = Reverted (Panic PANIC_DIVISION_BY_ZERO))
  /\ (rv = [] \/ s_players s = [] -> post_state s (tx_fulfillRandomWords env r rv s) = s).
Proof.
  rewrite tx_fulfillRandomWords_eq.
  split; [intros ->; reflexivity|]. split.
  - intros Hrv Hp. destruct rv; [congruence|]. rewrite Hp. reflexivity.
  - intros [-> | Hp]; [reflexivity|]. destruct rv; [reflexivity|].
    rewrite Hp. reflexivity.
Qed.

Lemma fulfill_edge_panics_witness :
  tx_fulfillRandomWords (env_at 40) 77 [] four_players = Reverted (Panic PANIC_ARRAY_INDEX)
  /\ tx_fulfillRandomWords (env_at 40) 77 [42] (constructor (env_at 0) 10 5 1 500000 30)
     = Reverted (Panic PANIC_DIVISION_BY_ZERO).
Proof.
  split.
  - exact (proj1 (fulfill_edge_panics (env_at 40) 77 [] four_players) eq_refl).
  - exact (proj1 (proj2 (fulfill_edge_panics (env_at 40) 77 [42]
                           (constructor (env_at 0) 10 5 1 500000 30)))
             ltac:(discriminate) eq_refl).
Defined.

(** A successful draw always pays one of the entrants. *)
Theorem fulfill_winner_is_player (env : Env) (r : Z) (rv : list Z)
    (s s' : Lottery) (log : list Action) :
  tx_fulfillRandomWords env r rv s = Success s' log ->
  In (s_recentWinner s') (s_players s).
Proof.
  rewrite tx_fulfillRandomWords_eq.
  destruct rv as [|w0 ws]; [discriminate|].
  destruct (Z.of_nat (length (s_players s)) =? 0); [discriminate|].
  destruct (selected_winner (w0 :: ws) s) as [w|] eqn:Hw; [|discriminate].
  destruct (call_succeeds env w (balance s)); [|discriminate].
  intros H. injection H as <- _. simpl.
  simpl in Hw. eapply nth_error_In. exact Hw.
Qed.

Lemma fulfill_winner_is_player_witness : In 103 [101; 102; 103; 104].
Proof.
  exact (fulfill_winner_is_player (env_at 40) 77 [42] four_players
           (mkLottery 10 [] 5 1 500000 103 OPEN 40 30 0)
           [Transfer 103 40; WinnerPicked 103] eq_refl).
Defined.

(** [getPlayer] reads inside the array and panics past its end. *)
Theorem getPlayer_bounds (s : Lottery) (i : Z) :
  0 <= i ->
  (i < Z.of_nat (length (s_players s)) ->
     exists p, nth_error (s_players s) (Z.to_nat i) = Some p /\ view (getPlayer i) s = Ok p s [])
  /\ (Z.of_nat (length (s_players s)) <= i ->
     view (getPlayer i) s = Revert (Panic PANIC_ARRAY_INDEX)).
Proof.
  intros Hi. unfold view, getPlayer, bind, get, index. split.
  - intros Hlt.
    destruct (nth_error (s_players s) (Z.to_nat i)) as [p|] eqn:E.
    + exists p. split; reflexivity.
    + apply nth_error_None in E. lia.
  - intros Hge.
    replace (nth_error (s_players s) (Z.to_nat i)) with (@None address).
    + reflexivity.
    + symmetry. apply nth_error_None. lia.
Qed.

Lemma getPlayer_bounds_witness :
  view (getPlayer 2) four_players = Ok 103 four_players []
  /\ view (getPlayer 4) four_players = Revert (Panic PANIC_ARRAY_INDEX).
Proof.
  split.
  - destruct (proj1 (getPlayer_bounds four_players 2 ltac:(lia))
                ltac:(vm_compute; reflexivity)) as [p [Hp Hv]].
    vm_compute in Hp. injection Hp as <-. exact Hv.
  - exact (proj2 (getPlayer_bounds four_players 4 ltac:(lia))
             ltac:(vm_compute; discriminate)).
Defined.

(** A successful entry is seen by the getters: the count grows by one, the
    new last slot holds the sender and the earlier slots are unchanged. *)
Theorem enter_then_getPlayer (v : Z) (snd : address) (s s' : Lottery) (log : list Action) :
  tx_enterLottery v snd s = Success s' log ->
  view getNumberOfPlayers s' = Ok (Z.of_nat (length (s_players s)) + 1) s' []
  /\ view (getPlayer (Z.of_nat (length (s_players s)))) s' = Ok snd s' []
  /\ (forall i p, view (getPlayer i) s = Ok p s [] -> view (getPlayer i) s' = Ok p s' []).
Proof.
  rewrite tx_enterLottery_eq.
  destruct (v <? i_entranceFee s); [discriminate|].
  destruct (negb (LotteryState_eqb (s_lotteryState s) OPEN)); [discriminate|].
  intros H. injection H as <- _.
  unfold view, getNumberOfPlayers, getPlayer, bind, get, ret, index; simpl.
  split; [|split].
  - rewrite length_app. simpl. f_equal. lia.
  - rewrite Nat2Z.id, nth_error_app2, Nat.sub_diag by lia. reflexivity.
  - intros i p.
    destruct (nth_error (s_players s) (Z.to_nat i)) as [q|] eqn:E; [|discriminate].
    intros Hq. injection Hq as <-.
    rewrite nth_error_app1, E; [reflexivity|].
    apply nth_error_Some. congruence.
Qed.

Lemma enter_then_getPlayer_witness :
  view (getPlayer 4) (enter_as 15 105 four_players) = Ok 105 (enter_as 15 105 four_players) [].
Proof.
  exact (proj1 (proj2 (enter_then_getPlayer 15 105 four_players
                         (enter_as 15 105 four_players) [LotteryEnter 105] eq_refl))).
Defined.

(** No transaction changes the immutable configuration (entrance fee, gas
    lane, subscription id, callback gas limit, interval). *)
Theorem immutables_preserved (s : Lottery) :
  (forall v snd, immutables (post_state s (tx_enterLottery v snd s)) = immutables s)
  /\ (forall env, immutables (post_state s (tx_performUpkeep env s)) = immutables s)
  /\ (forall env r rv, immutables (post_state s (tx_fulfillRandomWords env r rv s))
                       = immutables s).
Proof.
  split; [|split].
  - intros v snd. rewrite tx_enterLottery_eq.
    destruct (v <? i_entranceFee s); [reflexivity|].
    destruct (negb _); reflexivity.
  - intros env. rewrite tx_performUpkeep_eq.
    destruct (checkReady env s) as [[|]|]; reflexivity.
  - intros env r rv. rewrite tx_fulfillRandomWords_eq.
    destruct rv as [|w0 ws]; [reflexivity|].
    destruct (_ =? 0); [reflexivity|].
    destruct (selected_winner _ s) as [w|]; [|reflexivity].
    destruct (call_succeeds env w (balance s)); reflexivity.
Qed.

(** Over any reachable state, the balance covers one entrance fee per
    player: Ether only arrives with entries of at least the fee and leaves
    only with a payout that also clears the players. *)
Theorem reachable_balance_covers_fees (s : Lottery) :
  reachable s ->
  balance s >= i_entranceFee s * Z.of_nat (length (s_players s)).
Proof.
  induction 1 as [env fee gl sub cb iv | v snd s _ IH | env s _ IH | env r rv s _ IH].
  - simpl. lia.
  - rewrite tx_enterLottery_eq.
    destruct (v <? i_entranceFee s) eqn:Hv; [exact IH|].
    destruct (negb _); [exact IH|].
    apply Z.ltb_ge in Hv. simpl. rewrite length_app. simpl.
    rewrite Nat2Z.inj_add. simpl. lia.
  - rewrite tx_performUpkeep_eq.
    destruct (checkReady env s) as [[|]|]; exact IH.
  - rewrite tx_fulfillRandomWords_eq.
    destruct rv as [|w0 ws]; [exact IH|].
    destruct (_ =? 0); [exact IH|].
    destruct (selected_winner _ s) as [w|]; [|exact IH].
    destruct (call_succeeds env w (balance s)); [simpl; lia | exact IH].
Qed.

Lemma reachable_balance_covers_fees_witness :
  balance drawn >= i_entranceFee drawn * Z.of_nat (length (s_players drawn)).
Proof.
  exact (reachable_balance_covers_fees drawn drawn_reachable).
Defined.

(** Only an entry adds players: with no players [performUpkeep] reverts
    with [Lottery__UpkeepNotNeeded(balance, 0, state)] (block time not before
    the last timestamp), [performUpkeep] never changes the players and
    [fulfillRandomWords] either keeps them or clears them.  So after a
    settlement, which clears the players, no draw can be requested before a
    successful [enterLottery]. *)
Theorem players_grow_only_by_entry (s : Lottery) :
  (forall env, s_players s = [] -> s_lastTimestamp s <= block_timestamp env ->
     tx_performUpkeep env s
       = Reverted (Lottery__UpkeepNotNeeded (balance s) 0 (LotteryState_to_uint (s_lotteryState s))))
  /\ (forall env, s_players (post_state s (tx_performUpkeep env s)) = s_players s)
  /\ (forall env r rv,
        s_players (post_state s (tx_fulfillRandomWords env r rv s)) = s_players s
        \/ s_players (post_state s (tx_fulfillRandomWords env r rv s)) = []).
Proof.
  split; [|split].
  - intros env Hp Ht. rewrite tx_performUpkeep_eq, checkReady_eq, Hp.
    replace (block_timestamp env <? s_lastTimestamp s) with false
      by (symmetry; apply Z.ltb_ge; lia).
    simpl. rewrite !andb_false_r. reflexivity.
  - intros env. rewrite tx_performUpkeep_eq.
    destruct (checkReady env s) as [[|]|]; reflexivity.
  - intros env r rv. rewrite tx_fulfillRandomWords_eq.
    destruct rv as [|w0 ws]; [left; reflexivity|].
    destruct (_ =? 0); [left; reflexivity|].
    destruct (selected_winner _ s) as [w|]; [|left; reflexivity].
    destruct (call_succeeds env w (balance s)); [right | left]; reflexivity.
Qed.

Lemma players_grow_only_by_entry_witness :
  tx_performUpkeep (env_at 1000) (constructor (env_at 0) 10 5 1 500000 30)
    = Reverted (Lottery__UpkeepNotNeeded 0 0 0).
Proof.
  exact (proj1 (players_grow_only_by_entry (constructor (env_at 0) 10 5 1 500000 30))
           (env_at 1000) eq_refl ltac:(simpl; lia)).
Defined.
